(** * Web3Tools: a thin facade over a blockchain client library

    Shallow embedding of [src/index.js] (class [Web3Tools]) and proofs of
    the properties its specification states.

    The class holds one field, [this.web3], and five asynchronous
    methods.  Every method has the same shape:

      try { ...calls into the library...; return result }
      catch (error) { console.error(label, error); throw error }

    The client library (the [web3] package) and the node behind it are not
    part of this repository.  They appear here as an oracle [lib] that
    answers every library call from the current state of the node; the
    theorems hold for every such oracle, and [Module Sim] gives one
    concrete oracle on which they are instantiated.

    A method is run from its call to the settling of its promise as one
    step: an [await] on a library call is the oracle's answer to that
    call, a rejected promise being a thrown error.  Interleavings of
    several pending calls are outside this model. *)

From Stdlib Require Import Ascii QArith.
From stdpp Require Import gmap strings list pretty.

#[local] Close Scope Q_scope.

#[local] Set Warnings "-register-all".

(** ** JavaScript values *)

(** The values that cross the facade: arguments, library objects,
    results.  Objects are finite maps from property names to values. *)
Inductive Value : Type :=
| VUndefined
| VNull
| VBool (b : bool)
| VNum (n : Z)
| VStr (s : string)
| VArr (items : list Value)
| VObj (props : gmap string Value).

(** What a [throw] carries.  The library's failures are the kinds of the
    specification's taxonomy; [TypeError] is what the JavaScript runtime
    itself raises. *)
Inductive ErrorKind : Type :=
| ConnectionError
| InvalidAddressError
| InvalidMethodError
| OutOfGasError
| TransactionRevertedError
| InsufficientFundsError
| TypeError
| OtherError.

Record Error : Type := mkError { kind : ErrorKind; message : string }.

(** How an evaluation ends: with a value, or with a thrown error (for an
    [async] method: the promise is fulfilled, or rejected). *)
Inductive Completion (A : Type) : Type :=
| Returned (a : A)
| Thrown (e : Error).
Arguments Returned {A} a.
Arguments Thrown {A} e.

(** ** Calls into the library *)

(** The entry points of the library that [src/index.js] uses.
    [member name] is a call of the member [name] of an object that the
    library returned earlier ([contract.deploy], [deploy.send],
    [method.call]). *)
Inductive Api : Type :=
| Web3_new              (* new Web3(...)                  line 7  *)
| eth_getBlockNumber    (* web3.eth.getBlockNumber(...)   line 16 *)
| eth_getBalance        (* web3.eth.getBalance(...)       line 31 *)
| utils_fromWei         (* web3.utils.fromWei(...)        line 32 *)
| utils_toWei           (* web3.utils.toWei(...)          line 97 *)
| eth_Contract_new      (* new web3.eth.Contract(...)     lines 49, 69 *)
| eth_sendTransaction   (* web3.eth.sendTransaction(...)  line 94 *)
| member (name : string).

(** One call: the entry point, the object it is invoked on and the
    argument list, in source order. *)
Record Request : Type := mkRequest {
  api : Api;
  receiver : Value;
  args : list Value
}.

(** The instance's own fields: [this.web3] and nothing else.  The
    constructor stores the library's handle there; a call made on it is a
    [Request] with that value as receiver, and the library answers it. *)
Record Web3Tools : Type := mkWeb3Tools { web3 : Value }.

(** One line written by [console.error(label, error)]. *)
Record LogLine : Type := mkLogLine { label : string; logged : Error }.

Section Facade.

(** The state of the remote node (and of the library's own caches),
    and the library as an oracle over it. *)
Context {Node : Type}.
Variable lib : Request -> Node -> Completion Value * Node.

(** Everything a method can read or change. [calls] records every call
    made into the library with its outcome, oldest first. *)
Record State : Type := mkState {
  self : Web3Tools;
  node : Node;
  console : list LogLine;
  calls : list (Request * Completion Value)
}.

(** Computations that may read and change the state and may throw. *)
Definition M (A : Type) : Type := State -> Completion A * State.

Global Instance M_ret : MRet M := fun A a s => (Returned a, s).
Global Instance M_bind : MBind M := fun A B k m s =>
  match m s with
  | (Returned a, s') => k a s'
  | (Thrown e, s') => (Thrown e, s')
  end.

Definition throw {A} (e : Error) : M A := fun s => (Thrown e, s).

(** [try { body } catch (error) { handler }] *)
Definition try_catch {A} (body : M A) (handler : Error -> M A) : M A :=
  fun s =>
    match body s with
    | (Returned a, s') => (Returned a, s')
    | (Thrown e, s') => handler e s'
    end.

(** [console.error(label, error)] *)
Definition console_error (l : string) (e : Error) : M unit :=
  fun s => (Returned tt,
            {| self := self s; node := node s;
               console := console s ++ [mkLogLine l e];
               calls := calls s |}).

(** A call into the library: the oracle answers from the node's state,
    and the call is recorded. *)
Definition request (r : Request) : M Value :=
  fun s =>
    let '(c, n') := lib r (node s) in
    (c, {| self := self s; node := n'; console := console s;
           calls := calls s ++ [(r, c)] |}).

(** [this.web3] *)
Definition this_web3 : M Value := fun s => (Returned (web3 (self s)), s).

(** [this.web3 = v] *)
Definition set_this_web3 (v : Value) : M unit :=
  fun s => (Returned tt,
            {| self := {| web3 := v |}; node := node s;
               console := console s; calls := calls s |}).

(** *** The JavaScript runtime on values *)

Definition cannot_read (what : string) (p : string) : Error :=
  mkError TypeError
    ("Cannot read properties of " +:+ what +:+ " (reading '" +:+ p +:+ "')").

(** [v.p], a property read.  Reading a property of [undefined] or
    [null] throws; an object answers from its properties, a missing one
    reads as [undefined].  None of the names read in [src/index.js]
    ([methodsmethodName], [contractAddress], [transactionHash]) exists
    on a primitive or an array, so those read as [undefined] too. *)
Definition get_prop (v : Value) (p : string) : M Value :=
  match v with
  | VUndefined => throw (cannot_read "undefined" p)
  | VNull => throw (cannot_read "null" p)
  | VObj props => mret (default VUndefined (props !! p))
  | _ => mret VUndefined
  end.

Definition not_a_function (name : string) : Error :=
  mkError TypeError (name +:+ " is not a function").

(** [v.name(args)], a member call.  On [undefined] or [null] the
    runtime throws before anything is called, and a primitive or an array
    has none of the members called in [src/index.js] ([deploy], [send],
    [call]).  On an object the call goes to the library, with [v] as
    receiver: the library's objects carry their methods, and the library
    answers for them. *)
Definition call_member (v : Value) (name : string) (a : list Value)
  : M Value :=
  match v with
  | VUndefined => throw (cannot_read "undefined" name)
  | VNull => throw (cannot_read "null" name)
  | VObj _ => request (mkRequest (member name) v a)
  | _ => throw (not_a_function name)
  end.

(** *** The class, method by method *)

(** Lines 6-8. *)
Definition constructor (providerUrl : Value) : M unit :=
  h ← request (mkRequest Web3_new VUndefined [providerUrl]);
  set_this_web3 h.

(** The [catch] block shared by the five methods: log, then rethrow the
    error that was caught. *)
Definition log_and_rethrow {A} (l : string) (error : Error) : M A :=
  console_error l error;; throw error.

(** Lines 14-22. *)
Definition getBlockNumber : M Value :=
  try_catch
    (w ← this_web3;
     blockNumber ← request (mkRequest eth_getBlockNumber w []);
     mret blockNumber)
    (log_and_rethrow "Error fetching block number:").

(** Lines 29-37.  [fromWei] is an ordinary (synchronous) call inside the
    [try] block, so an error it throws reaches the [catch] block like
    one from the awaited [getBalance]. *)
Definition getBalance (address : Value) : M Value :=
  try_catch
    (w ← this_web3;
     balance ← request (mkRequest eth_getBalance w [address]);
     w' ← this_web3;
     request (mkRequest utils_fromWei w' [balance; VStr "ether"]))
    (log_and_rethrow "Error fetching balance:").

(** Lines 47-57.  Line 50 reads the property named [methodsmethodName]
    of the contract object; the parameters [methodName] and
    [methodParams] occur nowhere in the body. *)
Definition callContractMethod
    (contractAddress abi methodName methodParams : Value) : M Value :=
  try_catch
    (w ← this_web3;
     contract ← request (mkRequest eth_Contract_new w [abi; contractAddress]);
     method ← get_prop contract "methodsmethodName";
     result ← call_member method "call" [];
     mret result)
    (log_and_rethrow "Error calling contract method:").

(** Lines 67-83. *)
Definition deployContract
    (abi bytecode fromAddress constructorParams : Value) : M Value :=
  try_catch
    (w ← this_web3;
     contract ← request (mkRequest eth_Contract_new w [abi]);
     deploy ← call_member contract "deploy"
                [VObj {[ "data" := bytecode;
                         "arguments" := constructorParams ]}];
     transaction ← call_member deploy "send"
                [VObj {[ "from" := fromAddress;
                         "gas" := VNum 2000000 ]}];
     get_prop transaction "contractAddress")
    (log_and_rethrow "Error deploying contract:").

(** Lines 92-104.  The object literal's fields are evaluated in source
    order, so [toWei] runs before [sendTransaction] is called. *)
Definition sendTransaction (fromAddress toAddress amount : Value)
  : M Value :=
  try_catch
    (w ← this_web3;
     w' ← this_web3;
     value ← request (mkRequest utils_toWei w' [amount; VStr "ether"]);
     tx ← request (mkRequest eth_sendTransaction w
                     [VObj {[ "from" := fromAddress;
                              "to" := toAddress;
                              "value" := value ]}]);
     get_prop tx "transactionHash")
    (log_and_rethrow "Error sending transaction:").

End Facade.

(** ** Sequences of method calls *)

(** One call of one of the five methods, with its arguments. *)
Inductive Op : Type :=
| OpGetBlockNumber
| OpGetBalance (address : Value)
| OpCallContractMethod (contractAddress abi methodName methodParams : Value)
| OpDeployContract (abi bytecode fromAddress constructorParams : Value)
| OpSendTransaction (fromAddress toAddress amount : Value).

(** The label each method's [catch] block passes to [console.error]. *)
Definition catch_label (o : Op) : string :=
  match o with
  | OpGetBlockNumber => "Error fetching block number:"
  | OpGetBalance _ => "Error fetching balance:"
  | OpCallContractMethod _ _ _ _ => "Error calling contract method:"
  | OpDeployContract _ _ _ _ => "Error deploying contract:"
  | OpSendTransaction _ _ _ => "Error sending transaction:"
  end.

Section Runs.

Context {Node : Type}.
Variable lib : Request -> Node -> Completion Value * Node.

Definition run_op (o : Op) : M Value :=
  match o with
  | OpGetBlockNumber => getBlockNumber lib
  | OpGetBalance address => getBalance lib address
  | OpCallContractMethod contractAddress abi methodName methodParams =>
      callContractMethod lib contractAddress abi methodName methodParams
  | OpDeployContract abi bytecode fromAddress constructorParams =>
      deployContract lib abi bytecode fromAddress constructorParams
  | OpSendTransaction fromAddress toAddress amount =>
      sendTransaction lib fromAddress toAddress amount
  end.

(** A caller that issues the calls one after the other, whatever each of
    them returns or throws. *)
Fixpoint run_ops (os : list Op) (s : State) : State :=
  match os with
  | [] => s
  | o :: rest => run_ops rest (run_op o s).2
  end.

(** The node after the library has answered the given calls in order. *)
Fixpoint replay (n : Node) (rs : list (Request * Completion Value)) : Node :=
  match rs with
  | [] => n
  | (r, _) :: rest => replay (lib r n).2 rest
  end.

(** The recorded outcomes are the library's answers, starting from node
    state [n]. *)
Fixpoint answered (n : Node) (rs : list (Request * Completion Value)) : Prop :=
  match rs with
  | [] => True
  | (r, c) :: rest => c = (lib r n).1 /\ answered (lib r n).2 rest
  end.

End Runs.

(** ** Properties of computations *)

(** The entry points that are reached through the connection handle. *)
Definition web3_api (a : Api) : bool :=
  match a with
  | eth_getBlockNumber | eth_getBalance | utils_fromWei | utils_toWei
  | eth_Contract_new | eth_sendTransaction => true
  | Web3_new | member _ => false
  end.

(** A call that creates no handle and, if it goes through a handle, goes
    through [h]. *)
Definition through (h : Value) (r : Request) : Prop :=
  api r <> Web3_new /\ (web3_api (api r) = true -> receiver r = h).

Section Orderly.

Context {Node : Type}.
Variable lib : Request -> Node -> Completion Value * Node.

(** What holds of every piece of a method's [try] block, run on an
    instance whose handle is [h]: it leaves the instance and the console
    alone, it records the calls it makes with the library's answers, it
    touches the node only through them, they go through [h], and a call
    that fails is the last one made and its error is the outcome. *)
Definition orderly {A} (h : Value) (m : @M Node A) : Prop :=
  forall s, web3 (self s) = h ->
  exists new,
    self (m s).2 = self s
    /\ console (m s).2 = console s
    /\ calls (m s).2 = calls s ++ new
    /\ answered lib (node s) new
    /\ node (m s).2 = replay lib (node s) new
    /\ Forall (fun rc => through h rc.1) new
    /\ (forall i r e, new !! i = Some (r, Thrown e) ->
          S i = length new /\ (m s).1 = Thrown e).

(** What holds of a whole method with [catch] label [l]: as [orderly],
    except that a thrown error is logged, once, under [l]. *)
Definition facade_method (l : string) (m : @M Node Value) : Prop :=
  forall s, exists new,
    self (m s).2 = self s
    /\ calls (m s).2 = calls s ++ new
    /\ answered lib (node s) new
    /\ node (m s).2 = replay lib (node s) new
    /\ Forall (fun rc => through (web3 (self s)) rc.1) new
    /\ (forall i r e, new !! i = Some (r, Thrown e) ->
          S i = length new /\ (m s).1 = Thrown e)
    /\ (forall e, (m s).1 = Thrown e ->
          console (m s).2 = console s ++ [mkLogLine l e])
    /\ (forall v, (m s).1 = Returned v -> console (m s).2 = console s).

End Orderly.

(** ** The library's unit conversion *)

Module Units.

#[local] Open Scope N_scope.

(** The digit a character stands for. *)
Definition char_digit (c : ascii) : option N :=
  let n := N_of_ascii c in
  if (48 <=? n) && (n <=? 57) then Some (n - 48) else None.

Fixpoint parse_go (s : string) (acc : N) : option N :=
  match s with
  | EmptyString => Some acc
  | String c s' =>
      match char_digit c with
      | Some d => parse_go s' (10 * acc + d)
      | None => None
      end
  end.

(** The number a string of decimal digits denotes. *)
Definition parse_digits (s : string) : option N := parse_go s 0.

(** The text before the first dot, and the text after it if there is
    one. *)
Fixpoint split_dot (s : string) : string * option string :=
  match s with
  | EmptyString => (EmptyString, None)
  | String c s' =>
      if Ascii.eqb c "."%char then (EmptyString, Some s')
      else let '(w, f) := split_dot s' in (String c w, f)
  end.

Fixpoint zeros (k : nat) : string :=
  match k with O => EmptyString | S k' => String "0"%char (zeros k') end.

Definition pad_left (d : nat) (s : string) : string :=
  zeros (d - String.length s) +:+ s.

(** Drop the zeros at the end. *)
Fixpoint strip_zeros (s : string) : string :=
  match s with
  | EmptyString => EmptyString
  | String c s' =>
      match strip_zeros s' with
      | EmptyString =>
          if Ascii.eqb c "0"%char then EmptyString else String c EmptyString
      | r => String c r
      end
  end.

(** Modelled from the spec: [web3.utils.fromWei], the library's
    conversion from the smallest unit, is not part of this repository.
    The specification fixes its result as the number of wei divided by
    [10^18] "expressed as a decimal string", with ["2.5"] for
    [2500000000000000000].  Here: the whole part in decimal, then, unless
    the fraction is zero, a dot and the fraction padded to [decimals]
    digits with its trailing zeros dropped. *)
Definition fromWei (wei : N) (decimals : nat) : string :=
  let base := 10 ^ N.of_nat decimals in
  let fraction := strip_zeros (pad_left decimals (pretty (wei mod base))) in
  let whole := pretty (wei / base) in
  match fraction with
  | EmptyString => whole
  | _ => whole +:+ "." +:+ fraction
  end.

(** Modelled from the spec: [web3.utils.toWei], the library's conversion
    to the smallest unit, is not part of this repository.  The
    specification has it convert "a decimal string representing an Ether
    quantity" to wei.  Here: an optional whole part, an optional dot and
    fraction of at most [decimals] digits; anything else is rejected. *)
Definition toWei (amount : string) (decimals : nat) : option N :=
  let '(w, f) := split_dot amount in
  let fraction := default EmptyString f in
  if bool_decide (amount = ".") then None
  else if bool_decide (amount = "") then None
  else if negb (String.length fraction <=? decimals)%nat then None
  else
    whole ← parse_digits w;
    frac ← parse_digits (fraction +:+ zeros (decimals - String.length fraction));
    Some (whole * 10 ^ N.of_nat decimals + frac).

(** The rational number a decimal string denotes: whole part plus
    fraction over [10^(number of fraction digits)]. *)
Definition decimal_value (s : string) : option Q :=
  let '(w, f) := split_dot s in
  let fraction := default EmptyString f in
  whole ← parse_digits w;
  frac ← parse_digits fraction;
  Some (inject_Z (Z.of_N whole)
        + inject_Z (Z.of_N frac)
          / inject_Z (10 ^ Z.of_nat (String.length fraction)))%Q.

(** The number of wei a value stands for, when it is a non-negative
    integer or a non-empty string of decimal digits (the forms in which
    the library hands out and accepts amounts of wei). *)
Definition wei_of (v : Value) : option N :=
  match v with
  | VNum n => if (0 <=? n)%Z then Some (Z.to_N n) else None
  | VStr EmptyString => None
  | VStr s => parse_digits s
  | _ => None
  end.

(** The number of digits of a positive number. *)
Definition width (x : N) : nat := String.length (pretty_N_go x "").

End Units.

(** The exponent of the unit ['ether']: [10^18] wei are one Ether. *)
Definition ether_decimals : nat := 18.

Section Conformance.

Context {Node : Type}.
Variable lib : Request -> Node -> Completion Value * Node.

(** The library's [fromWei] converts as [Units.fromWei] does, on every
    handle and in every state of the node, and leaves the node alone. *)
Definition standard_fromWei : Prop :=
  forall (h v : Value) (wei : N) (n : Node),
    Units.wei_of v = Some wei ->
    lib (mkRequest utils_fromWei h [v; VStr "ether"]) n
    = (Returned (VStr (Units.fromWei wei ether_decimals)), n).

(** The library's [toWei] converts as [Units.toWei] does where that is
    defined, and hands the result out as a string of digits. *)
Definition standard_toWei : Prop :=
  forall (h : Value) (amount : string) (wei : N) (n : Node),
    Units.toWei amount ether_decimals = Some wei ->
    lib (mkRequest utils_toWei h [VStr amount; VStr "ether"]) n
    = (Returned (VStr (pretty wei)), n).

(** The objects that [new web3.eth.Contract(...)] returns have no
    property named [p]. *)
Definition contract_lacks (p : string) : Prop :=
  forall (r : Request) (n n' : Node) (c : Value),
    api r = eth_Contract_new ->
    lib r n = (Returned c, n') ->
    exists props, c = VObj props /\ props !! p = None.

End Conformance.

(** ** Callable entries of an ABI *)

(** An ABI is an array of entries; an entry with type ["function"] and
    name [name] is what a method name resolves to. *)
Definition callable_entry (name : string) (entry : Value) : bool :=
  match entry with
  | VObj e =>
      match e !! "type", e !! "name" with
      | Some (VStr t), Some (VStr n) => String.eqb t "function" && String.eqb n name
      | _, _ => false
      end
  | _ => false
  end.

Definition resolves (abi : Value) (name : string) : bool :=
  match abi with
  | VArr entries => existsb (callable_entry name) entries
  | _ => false
  end.

(** ** A simulated library and node *)

(** One concrete oracle: a node that is online or not, with a chain head
    and account balances, behind a library with the standard unit
    conversion.  The general theorems are instantiated on it. *)
Module Sim.

Record Chain : Type := mkChain {
  online : bool;
  head : Z;
  balances : gmap string N
}.

Definition unreachable : Error :=
  mkError ConnectionError "connection not open".

Definition unsupported : Error :=
  mkError OtherError "unsupported call".

(** A request that needs the node: answered if it is online. *)
Definition over_wire (c : Chain) (answer : Completion Value * Chain)
  : Completion Value * Chain :=
  if online c then answer else (Thrown unreachable, c).

(** The node after one more block. *)
Definition mined (c : Chain) : Chain :=
  {| online := online c; head := head c + 1; balances := balances c |}.

Definition is_ether (unit : Value) : bool :=
  match unit with VStr u => String.eqb u "ether" | _ => false end.

Definition member_call (name : string) (a : list Value) (c : Chain)
  : Completion Value * Chain :=
  if String.eqb name "deploy" then
    (Returned (VObj {[ "arguments" := VArr a ]}), c)
  else if String.eqb name "send" then
    over_wire c
      (Returned (VObj {[ "contractAddress" := VStr "0x5FbDB2315678";
                         "blockNumber" := VNum (head c + 1) ]}),
       mined c)
  else (Thrown unsupported, c).

Definition lib (r : Request) (c : Chain) : Completion Value * Chain :=
  match api r, args r with
  | Web3_new, [url] => (Returned (VObj {[ "currentProvider" := url ]}), c)
  | eth_getBlockNumber, [] => over_wire c (Returned (VNum (head c)), c)
  | eth_getBalance, [VStr a] =>
      over_wire c
        (Returned (VStr (pretty (default 0%N (balances c !! a)))), c)
  | eth_getBalance, _ =>
      (Thrown (mkError InvalidAddressError "invalid address"), c)
  | utils_fromWei, [v; unit] =>
      match Units.wei_of v with
      | Some wei =>
          if is_ether unit
          then (Returned (VStr (Units.fromWei wei ether_decimals)), c)
          else (Thrown unsupported, c)
      | None => (Thrown unsupported, c)
      end
  | utils_toWei, [VStr amount; unit] =>
      match Units.toWei amount ether_decimals with
      | Some wei =>
          if is_ether unit
          then (Returned (VStr (pretty wei)), c)
          else (Thrown unsupported, c)
      | None => (Thrown unsupported, c)
      end
  | eth_Contract_new, abi :: rest =>
      (Returned (VObj {[ "options" :=
                           VObj {[ "jsonInterface" := abi;
                                   "address" := hd VUndefined rest ]} ]}), c)
  | eth_sendTransaction, [VObj tx] =>
      over_wire c
        (Returned (VObj {[ "transactionHash" := VStr "0x9fc76417374a";
                           "blockNumber" := VNum (head c + 1) ]}),
         mined c)
  | member name, a => member_call name a c
  | _, _ => (Thrown unsupported, c)
  end.

(** A chain at block 100 on which ["0xABC"] holds 2.5 Ether. *)
Definition chain100 : Chain :=
  {| online := true; head := 100;
     balances := {[ "0xABC" := 2500000000000000000%N ]} |}.

(** The same chain behind a connection that is down. *)
Definition offline100 : Chain :=
  {| online := false; head := 100;
     balances := {[ "0xABC" := 2500000000000000000%N ]} |}.

Definition provider : Value := VStr "http://localhost:8545".

Definition handle : Value := VObj {[ "currentProvider" := provider ]}.

(** An instance that was constructed on [provider], before any call. *)
Definition fresh (c : Chain) : @State Chain :=
  {| self := {| web3 := handle |}; node := c; console := []; calls := [] |}.

(** An instance before its constructor has run. *)
Definition blank (c : Chain) : @State Chain :=
  {| self := {| web3 := VUndefined |}; node := c; console := [];
     calls := [] |}.

(** An ABI with one callable entry, [totalSupply]. *)
Definition token_abi : Value :=
  VArr [VObj {[ "type" := VStr "function"; "name" := VStr "totalSupply";
                "inputs" := VArr [] ]}].

End Sim.

(** ** Counting calls and log lines *)

(** The number of calls into the library on the longest path through a
    method: the call sites of its [try] block. *)
Definition max_calls (o : Op) : nat :=
  match o with
  | OpGetBlockNumber => 1
  | OpGetBalance _ => 2
  | OpCallContractMethod _ _ _ _ => 2
  | OpDeployContract _ _ _ _ => 3
  | OpSendTransaction _ _ _ => 2
  end.

Section Logs.

Context {Node : Type}.
Variable lib : Request -> Node -> Completion Value * Node.

(** The lines a sequence of calls writes to the console: for each call
    that throws, its label with the error thrown, in the order of the
    calls. *)
Fixpoint run_ops_log (os : list Op) (s : @State Node) : list LogLine :=
  match os with
  | [] => []
  | o :: rest =>
      match (run_op lib o s).1 with
      | Thrown e => [mkLogLine (catch_label o) e]
      | Returned _ => []
      end ++ run_ops_log rest (run_op lib o s).2
  end.

End Logs.

(** ** Stub libraries *)

(** Two oracles without a node behind them: one that fails every call
    with the same error, one that answers every call with the same
    value. *)
Module Stub.

Definition refusing (e : Error) (r : Request) (n : unit)
  : Completion Value * unit := (Thrown e, n).

Definition answering (v : Value) (r : Request) (n : unit)
  : Completion Value * unit := (Returned v, n).

(** An instance whose handle is [w], before any call. *)
Definition start (w : Value) : @State unit :=
  {| self := {| web3 := w |}; node := tt; console := []; calls := [] |}.

(** What a deployment resolves to when the address of the new contract
    is kept under [options.address]. *)
Definition contract_instance : Value :=
  VObj {[ "options" := VObj {[ "address" := VStr "0x5FbDB2315678" ]} ]}.

End Stub.

(** * Facts *)

(** ** Unit conversion *)

Module UnitsFacts.

Import Units.
#[local] Open Scope N_scope.

(** *** Strings *)

Lemma str_app_cons c s1 s2 : String c s1 +:+ s2 = String c (s1 +:+ s2).
Proof. reflexivity. Qed.

Lemma str_app_nil_l s : "" +:+ s = s.
Proof. reflexivity. Qed.

Lemma str_app_nil_r s : s +:+ "" = s.
Proof. induction s as [|c s IH]; [done|]. by rewrite str_app_cons, IH. Qed.

Lemma str_app_assoc s1 s2 s3 : s1 +:+ s2 +:+ s3 = (s1 +:+ s2) +:+ s3.
Proof. induction s1 as [|c s1 IH]; [done|]. by rewrite !str_app_cons, IH. Qed.

Lemma str_length_app s1 s2 :
  String.length (s1 +:+ s2) = (String.length s1 + String.length s2)%nat.
Proof.
  induction s1 as [|c s1 IH]; [done|]. rewrite str_app_cons. simpl. by rewrite IH.
Qed.

(** *** Digits *)

(** Replace [x / 10] and [x mod 10] by fresh variables [q] and [r] with
    [x = 10 * q + r] and [r < 10], for [lia]. *)
Ltac by_tens x :=
  let Hdm := fresh "Hdm" in
  let Hlt := fresh "Hlt" in
  pose proof (N.div_mod x 10 ltac:(discriminate)) as Hdm;
  pose proof (N.mod_lt x 10 ltac:(discriminate)) as Hlt;
  generalize dependent (x `mod` 10); generalize dependent (x `div` 10);
  intros.

Lemma parse_go_app s1 s2 acc :
  parse_go (s1 +:+ s2) acc = parse_go s1 acc ≫= parse_go s2.
Proof.
  revert acc. induction s1 as [|c s1 IH]; intros acc; [done|].
  rewrite str_app_cons. simpl. destruct (char_digit c); [apply IH | done].
Qed.

Lemma char_digit_pretty d : d < 10 -> char_digit (pretty_N_char d) = Some d.
Proof.
  intros H.
  assert (Hd : d = 0 \/ d = 1 \/ d = 2 \/ d = 3 \/ d = 4 \/ d = 5 \/ d = 6
               \/ d = 7 \/ d = 8 \/ d = 9) by lia.
  repeat (destruct Hd as [->|Hd]; [reflexivity|]). by subst.
Qed.

Lemma pretty_N_go_app x s : pretty_N_go x s = pretty_N_go x "" +:+ s.
Proof.
  revert s. induction (N.lt_wf_0 x) as [x _ IH]; intros s.
  destruct (decide (0 < x)) as [Hx|Hx].
  - assert (Hlt : x `div` 10 < x) by (apply N.div_lt; lia).
    rewrite !(pretty_N_go_step x) by done.
    rewrite (IH _ Hlt (String _ s)), (IH _ Hlt (String _ "")).
    by rewrite <- str_app_assoc.
  - assert (x = 0) as -> by lia. by rewrite !pretty_N_go_0.
Qed.

Lemma width_step x : 0 < x -> width x = S (width (x `div` 10)).
Proof.
  intros Hx. unfold width. rewrite pretty_N_go_step by done.
  rewrite pretty_N_go_app, str_length_app. simpl. lia.
Qed.

Lemma parse_pretty_go x acc :
  parse_go (pretty_N_go x "") acc = Some (acc * 10 ^ N.of_nat (width x) + x).
Proof.
  revert acc. induction (N.lt_wf_0 x) as [x _ IH]; intros acc.
  destruct (decide (0 < x)) as [Hx|Hx].
  - rewrite width_step by done.
    rewrite pretty_N_go_step, pretty_N_go_app, parse_go_app by done.
    rewrite IH by (apply N.div_lt; lia). simpl.
    rewrite char_digit_pretty by (apply N.mod_lt; lia).
    f_equal. rewrite Nat2N.inj_succ, N.pow_succ_r'.
    generalize (10 ^ N.of_nat (width (x `div` 10))); intros p.
    by_tens x. lia.
  - assert (x = 0) as -> by lia. unfold width. rewrite pretty_N_go_0. simpl.
    f_equal; lia.
Qed.

Lemma parse_pretty x : parse_digits (pretty x) = Some x.
Proof.
  unfold pretty, pretty_N, parse_digits. case_decide as Hx.
  - by subst.
  - rewrite parse_pretty_go. f_equal; lia.
Qed.

Lemma width_lower x : 0 < x -> 10 ^ N.of_nat (width x - 1) <= x.
Proof.
  induction (N.lt_wf_0 x) as [x _ IH]; intros Hx.
  rewrite width_step by done. simpl. rewrite Nat.sub_0_r.
  destruct (decide (0 < x `div` 10)) as [Hq|Hq].
  - specialize (IH (x `div` 10) ltac:(apply N.div_lt; lia) Hq).
    pose proof (width_step (x `div` 10) Hq) as Hw.
    replace (width (x `div` 10)) with (S (width (x `div` 10) - 1)) by lia.
    rewrite Nat2N.inj_succ, N.pow_succ_r'.
    generalize dependent (10 ^ N.of_nat (width (x `div` 10) - 1)).
    intros p Hp. clear Hw. by_tens x. lia.
  - apply N.nlt_ge, N.le_0_r in Hq. rewrite Hq.
    unfold width. rewrite pretty_N_go_0. simpl. lia.
Qed.

Lemma length_pretty_bound x d :
  x < 10 ^ N.of_nat d -> (1 <= d)%nat -> (String.length (pretty x) <= d)%nat.
Proof.
  intros Hx Hd. unfold pretty, pretty_N. case_decide as H0; [done|].
  fold (width x). destruct (decide (width x <= d)%nat) as [|Hw]; [done|].
  pose proof (width_lower x ltac:(lia)) as Hl.
  assert (10 ^ N.of_nat d <= 10 ^ N.of_nat (width x - 1))
    by (apply N.pow_le_mono_r; lia).
  lia.
Qed.

Lemma pretty_nonempty (x : N) : pretty x <> "".
Proof.
  unfold pretty, pretty_N. case_decide as H0; [done|].
  rewrite pretty_N_go_step by lia. rewrite pretty_N_go_app.
  destruct (pretty_N_go _ ""); done.
Qed.

(** *** Padding, stripping and splitting *)

Lemma length_zeros k : String.length (zeros k) = k.
Proof. induction k as [|k IH]; simpl; congruence. Qed.

Lemma parse_go_zeros k acc :
  parse_go (zeros k) acc = Some (acc * 10 ^ N.of_nat k).
Proof.
  revert acc. induction k as [|k IH]; intros acc.
  - simpl. f_equal; lia.
  - change (parse_go (zeros (S k)) acc) with (parse_go (zeros k) (10 * acc + 0)).
    rewrite IH, Nat2N.inj_succ, N.pow_succ_r'. f_equal; lia.
Qed.

Lemma strip_zeros_spec s : exists k, s = strip_zeros s +:+ zeros k.
Proof.
  induction s as [|c s [k IH]]; [by exists 0%nat|]. simpl.
  destruct (strip_zeros s) as [|c' r] eqn:E.
  - destruct (Ascii.eqb_spec c "0"%char) as [->|Hc].
    + exists (S k). by rewrite IH at 1.
    + exists k. by rewrite IH at 1.
  - exists k. by rewrite IH at 1.
Qed.

Lemma char_digit_not_dot c d : char_digit c = Some d -> Ascii.eqb c "." = false.
Proof.
  intros H. destruct (Ascii.eqb_spec c "."%char) as [->|]; [discriminate|done].
Qed.

Lemma split_dot_digits s acc v t :
  parse_go s acc = Some v ->
  split_dot (s +:+ t) = (s +:+ fst (split_dot t), snd (split_dot t)).
Proof.
  revert acc. induction s as [|c s IH]; intros acc H.
  - rewrite !str_app_nil_l. by destruct (split_dot t).
  - simpl in H. destruct (char_digit c) as [d|] eqn:Hc; [|done].
    rewrite !str_app_cons. simpl. rewrite (char_digit_not_dot _ _ Hc).
    by rewrite (IH _ H).
Qed.

(** *** What [fromWei] prints *)

Lemma fromWei_parts (wei : N) (decimals : nat) :
  exists (fraction : string) (f : N) (k : nat),
    fromWei wei decimals
    = pretty (wei / 10 ^ N.of_nat decimals)
      +:+ (if decide (fraction = "") then "" else "." +:+ fraction)
    /\ parse_digits fraction = Some f
    /\ f * 10 ^ N.of_nat k = wei mod 10 ^ N.of_nat decimals
    /\ (fraction <> "" -> (String.length fraction + k)%nat = decimals).
Proof.
  set (base := 10 ^ N.of_nat decimals).
  set (padded := pad_left decimals (pretty (wei mod base))).
  destruct (strip_zeros_spec padded) as [k Hk].
  assert (Hpad : parse_digits padded = Some (wei mod base)).
  { unfold padded, pad_left, parse_digits.
    rewrite parse_go_app, parse_go_zeros. simpl. apply parse_pretty. }
  unfold parse_digits in Hpad. rewrite Hk, parse_go_app in Hpad.
  destruct (parse_go (strip_zeros padded) 0) as [f|] eqn:Hf; [|done].
  simpl in Hpad. rewrite parse_go_zeros in Hpad.
  exists (strip_zeros padded), f, k. split_and!.
  - unfold fromWei. fold base. fold padded.
    destruct (strip_zeros padded); [by rewrite str_app_nil_r|done].
  - done.
  - congruence.
  - intros Hne. apply (f_equal String.length) in Hk.
    rewrite str_length_app, length_zeros in Hk. rewrite <- Hk.
    unfold padded, pad_left. rewrite str_length_app, length_zeros.
    destruct decimals as [|d'].
    + exfalso. apply Hne. subst padded base. simpl.
      by rewrite N.mod_1_r.
    + pose proof (length_pretty_bound (wei mod base) (S d')
                    ltac:(apply N.mod_lt, N.pow_nonzero; done) ltac:(lia)).
      lia.
Qed.

Lemma split_dot_fromWei (wei : N) (decimals : nat) fraction :
  split_dot
    (pretty (wei / 10 ^ N.of_nat decimals)
     +:+ (if decide (fraction = "") then "" else "." +:+ fraction))
  = (pretty (wei / 10 ^ N.of_nat decimals),
     if decide (fraction = "") then None else Some fraction).
Proof.
  rewrite (split_dot_digits _ 0 _ _ (parse_pretty _)).
  case_decide; simpl; by rewrite str_app_nil_r.
Qed.

(** The amount that [fromWei] prints converts back to the same number
    of wei. *)
Lemma toWei_fromWei (wei : N) (decimals : nat) :
  toWei (fromWei wei decimals) decimals = Some wei.
Proof.
  destruct (fromWei_parts wei decimals) as (fr & f & k & Heq & Hf & Hk & Hlen).
  unfold toWei. rewrite Heq, split_dot_fromWei.
  set (whole := wei / 10 ^ N.of_nat decimals) in *.
  assert (Hne : forall t, pretty whole +:+ t <> "" /\ pretty whole +:+ t <> ".").
  { intros t. pose proof (parse_pretty whole) as Hp.
    pose proof (pretty_nonempty whole) as Hn.
    destruct (pretty whole) as [|c s]; [done|]. rewrite str_app_cons.
    split; [done|]. intros [= -> _]. done. }
  destruct (Hne (if decide (fr = "") then "" else "." +:+ fr)) as [Hn1 Hn2].
  rewrite !bool_decide_eq_false_2 by done.
  assert (Hfr : default "" (if decide (fr = "") then None else Some fr) = fr)
    by (by case_decide).
  rewrite Hfr. clear Hfr.
  assert (Hle : (String.length fr <= decimals)%nat).
  { destruct (decide (fr = "")) as [->|Hx]; [simpl; lia|].
    specialize (Hlen Hx). lia. }
  apply Nat.leb_le in Hle as Hle'. rewrite Hle'. simpl.
  rewrite parse_pretty. simpl. unfold parse_digits in *.
  rewrite parse_go_app, Hf. simpl. rewrite parse_go_zeros. simpl. f_equal.
  assert (f * 10 ^ N.of_nat (decimals - String.length fr)
          = wei mod 10 ^ N.of_nat decimals) as ->.
  { destruct (decide (fr = "")) as [->|Hx].
    - simpl in Hf. injection Hf as <-. lia.
    - specialize (Hlen Hx). rewrite <- Hk. do 2 f_equal. lia. }
  unfold whole. rewrite N.mul_comm. symmetry. apply N.div_mod.
  by apply N.pow_nonzero.
Qed.

(** *** The number a decimal string denotes *)

Lemma inject_pow10_nonzero (k : nat) : ~ (inject_Z (10 ^ Z.of_nat k) == 0)%Q.
Proof.
  unfold Qeq. simpl. pose proof (Z.pow_pos_nonneg 10 (Z.of_nat k)). lia.
Qed.

Lemma decimal_sum (w f : N) (l k : nat) :
  (inject_Z (Z.of_N w)
   + inject_Z (Z.of_N f) / inject_Z (10 ^ Z.of_nat l)
   == inject_Z (Z.of_N (w * 10 ^ N.of_nat (l + k) + f * 10 ^ N.of_nat k))
      / inject_Z (10 ^ Z.of_nat (l + k)))%Q.
Proof.
  rewrite N2Z.inj_add, !N2Z.inj_mul, !N2Z.inj_pow, !nat_N_Z.
  rewrite Nat2Z.inj_add, !Z.pow_add_r by lia. simpl (Z.of_N 10).
  rewrite inject_Z_plus, !inject_Z_mult.
  pose proof (inject_pow10_nonzero l) as Hl.
  pose proof (inject_pow10_nonzero k) as Hk.
  revert Hl Hk.
  generalize (inject_Z (10 ^ Z.of_nat l)) (inject_Z (10 ^ Z.of_nat k))
    (inject_Z (Z.of_N w)) (inject_Z (Z.of_N f)).
  intros a b x y Ha Hb. field. done.
Qed.

(** [fromWei wei decimals] denotes [wei / 10^decimals]. *)
Lemma decimal_value_fromWei (wei : N) (decimals : nat) :
  exists q, decimal_value (fromWei wei decimals) = Some q
    /\ (q == inject_Z (Z.of_N wei) / inject_Z (10 ^ Z.of_nat decimals))%Q.
Proof.
  destruct (fromWei_parts wei decimals) as (fr & f & k & Heq & Hf & Hk & Hlen).
  unfold decimal_value. rewrite Heq, split_dot_fromWei, parse_pretty. simpl.
  pose proof (N.div_mod wei (10 ^ N.of_nat decimals)
                ltac:(by apply N.pow_nonzero)) as Hdm.
  rewrite N.mul_comm, <- Hk in Hdm.
  destruct (decide (fr = "")) as [->|Hx]; simpl.
  - eexists; split; [done|]. simpl in Hf. injection Hf as <-.
    rewrite N.mul_0_l in Hdm.
    etransitivity; [apply (decimal_sum _ 0 0 decimals)|].
    simpl (0 + decimals)%nat. rewrite N.mul_0_l, <- Hdm. done.
  - rewrite Hf. simpl. eexists; split; [done|]. specialize (Hlen Hx).
    rewrite Hdm at 2. rewrite <- Hlen. apply decimal_sum.
Qed.

(** What [toWei] returns is the amount's value scaled by
    [10^decimals]. *)
Lemma decimal_value_toWei (amount : string) (decimals : nat) (wei : N) :
  toWei amount decimals = Some wei ->
  exists q, decimal_value amount = Some q
    /\ (q == inject_Z (Z.of_N wei) / inject_Z (10 ^ Z.of_nat decimals))%Q.
Proof.
  unfold toWei, decimal_value. destruct (split_dot amount) as [w fo].
  set (fr := default "" fo).
  repeat case_bool_decide; try done.
  destruct (String.length fr <=? decimals)%nat eqn:Hle; [|done].
  apply Nat.leb_le in Hle. simpl.
  destruct (parse_digits w) as [whole|]; [|done]. simpl.
  unfold parse_digits. rewrite parse_go_app.
  destruct (parse_go fr 0) as [f|]; [|done]. simpl.
  rewrite parse_go_zeros. simpl. intros [= <-].
  eexists; split; [done|].
  set (k := (decimals - String.length fr)%nat).
  assert (Hd : decimals = (String.length fr + k)%nat) by lia.
  clearbody k. subst decimals. apply decimal_sum.
Qed.

End UnitsFacts.

(** ** The shape of every method *)

Section FacadeFacts.

Context {Node : Type}.
Variable lib : Request -> Node -> Completion Value * Node.

Implicit Types (s : @State Node) (h v : Value) (r : Request) (e : Error).

Lemma replay_app (n : Node) (xs ys : list (Request * Completion Value)) :
  replay lib n (xs ++ ys) = replay lib (replay lib n xs) ys.
Proof.
  revert n. induction xs as [|[r c] xs IH]; intros n; [done|]. apply IH.
Qed.

Lemma answered_app (n : Node) (xs ys : list (Request * Completion Value)) :
  answered lib n xs -> answered lib (replay lib n xs) ys ->
  answered lib n (xs ++ ys).
Proof.
  revert n. induction xs as [|[r c] xs IH]; intros n; [done|].
  intros [Hc Hxs] Hys. split; [done|]. by apply IH.
Qed.

Lemma orderly_ret {A} h (a : A) : orderly lib h (mret a).
Proof.
  intros s _. exists []. simpl. rewrite app_nil_r.
  split_and!; done.
Qed.

Lemma orderly_throw {A} h e : orderly lib h (@throw Node A e).
Proof.
  intros s _. exists []. simpl. rewrite app_nil_r.
  split_and!; done.
Qed.

Lemma orderly_request h r : through h r -> orderly lib h (request lib r).
Proof.
  intros Hr s _. unfold request.
  destruct (lib r (node s)) as [c n'] eqn:E. exists [(r, c)]. simpl.
  rewrite E. split_and!; try done.
  - by apply Forall_singleton.
  - intros [|i] r' e Hi; simpl in Hi; [|by rewrite lookup_nil in Hi].
    by injection Hi as -> ->.
Qed.

Lemma orderly_bind {A B} h (m : @M Node A) (k : A -> @M Node B) :
  orderly lib h m -> (forall a, orderly lib h (k a)) ->
  orderly lib h (m ≫= k).
Proof.
  intros Hm Hk s Hs.
  destruct (Hm s Hs)
    as (new1 & Hself & Hcon & Hcalls & Hans & Hnode & Hthr & Hfail).
  unfold mbind, M_bind. destruct (m s) as [[a|e] s1] eqn:E; simpl in *.
  - destruct (Hk a s1 ltac:(congruence))
      as (new2 & Hself2 & Hcon2 & Hcalls2 & Hans2 & Hnode2 & Hthr2 & Hfail2).
    exists (new1 ++ new2). split_and!.
    + congruence.
    + congruence.
    + rewrite Hcalls2, Hcalls. by rewrite app_assoc.
    + apply answered_app; [done|]. by rewrite <- Hnode.
    + rewrite Hnode2, Hnode. by rewrite replay_app.
    + by apply Forall_app.
    + intros i r e Hi. apply lookup_app_Some in Hi as [Hi|[Hle Hi]].
      * by destruct (Hfail _ _ _ Hi).
      * destruct (Hfail2 _ _ _ Hi) as [Hlen ->]. split; [|done].
        rewrite length_app. lia.
  - exists new1. split_and!; try done.
    intros i r e' Hi. by destruct (Hfail _ _ _ Hi) as [? [= ->]].
Qed.

(** Reading [this.web3] yields the handle. *)
Lemma orderly_this_web3 {B} h (k : Value -> @M Node B) :
  orderly lib h (k h) -> orderly lib h (this_web3 ≫= k).
Proof. intros Hk s Hs. specialize (Hk s Hs). by subst h. Qed.

Lemma orderly_get_prop h v p : orderly lib h (get_prop v p).
Proof. destruct v; first [apply orderly_throw | apply orderly_ret]. Qed.

Lemma orderly_call_member h v name a : orderly lib h (call_member lib v name a).
Proof.
  destruct v; try apply orderly_throw. apply orderly_request. by split.
Qed.

(** A [try] block that is orderly, under the [catch] block of the five
    methods, makes a facade method. *)
Lemma facade_method_try_catch (l : string) (body : @M Node Value) :
  (forall h, orderly lib h body) ->
  facade_method lib l (try_catch body (log_and_rethrow l)).
Proof.
  intros Hb s.
  destruct (Hb _ s eq_refl)
    as (new & Hself & Hcon & Hcalls & Hans & Hnode & Hthr & Hfail).
  exists new. unfold try_catch.
  destruct (body s) as [[v|e] s1] eqn:E; simpl in *.
  - split_and!; try done; intros i r e Hi; by destruct (Hfail _ _ _ Hi).
  - split_and!; try done; intros e' [= ->]; by rewrite Hcon.
Qed.

(** Take a [try] block apart into its pieces. *)
Ltac orderly_pieces :=
  repeat first
    [ apply orderly_this_web3
    | apply orderly_bind; [|intros ?]
    | apply orderly_request; by split
    | apply orderly_get_prop
    | apply orderly_call_member
    | apply orderly_ret ].

(** Each of the five methods is a facade method under its own label. *)
Lemma run_op_facade_method (o : Op) :
  facade_method lib (catch_label o) (run_op lib o).
Proof.
  destruct o; simpl; apply facade_method_try_catch; intros h; orderly_pieces.
Qed.

(** A [try] block that begins with the call [r] records [r] first. *)
Lemma first_call_try (l : string) (body : @M Node Value) r
    (k : Value -> @M Node Value) s :
  body s = (request lib r ≫= k) s ->
  (forall v, orderly lib (web3 (self s)) (k v)) ->
  exists rc rest,
    calls (try_catch body (log_and_rethrow l) s).2 = calls s ++ rc :: rest
    /\ rc.1 = r.
Proof.
  intros Hbody Hk. unfold try_catch. rewrite Hbody.
  unfold mbind, M_bind, request.
  destruct (lib r (node s)) as [[v|e] n1]; simpl.
  - destruct (Hk v {| self := self s; node := n1; console := console s;
                      calls := calls s ++ [(r, Returned v)] |} eq_refl)
      as (new & _ & _ & Hcalls & _).
    simpl in Hcalls. exists (r, Returned v), new. split; [|done].
    destruct (k v _) as [[v'|e'] s2]; simpl in *;
      by rewrite Hcalls, <- app_assoc.
  - by exists (r, Thrown e), [].
Qed.

(** Every method begins with a call through the instance's handle. *)
Lemma run_op_first_call (o : Op) s :
  exists rc rest,
    calls (run_op lib o s).2 = calls s ++ rc :: rest
    /\ web3_api (api rc.1) = true
    /\ receiver rc.1 = web3 (self s).
Proof.
  destruct o as [|address|contractAddress abi methodName methodParams
                 |abi bytecode fromAddress constructorParams
                 |fromAddress toAddress amount]; simpl.
  - destruct (first_call_try "Error fetching block number:"
                (w ← this_web3;
                 blockNumber ← request lib (mkRequest eth_getBlockNumber w []);
                 mret blockNumber)
                (mkRequest eth_getBlockNumber (web3 (self s)) [])
                (fun blockNumber => mret blockNumber) s eq_refl)
      as (rc & rest & Hcalls & Hrc); [intros; orderly_pieces|].
    exists rc, rest. by rewrite Hrc.
  - destruct (first_call_try "Error fetching balance:"
                (w ← this_web3;
                 balance ← request lib (mkRequest eth_getBalance w [address]);
                 w' ← this_web3;
                 request lib (mkRequest utils_fromWei w' [balance; VStr "ether"]))
                (mkRequest eth_getBalance (web3 (self s)) [address])
                (fun balance =>
                   w' ← this_web3;
                   request lib
                     (mkRequest utils_fromWei w' [balance; VStr "ether"]))
                s eq_refl)
      as (rc & rest & Hcalls & Hrc); [intros; orderly_pieces|].
    exists rc, rest. by rewrite Hrc.
  - destruct (first_call_try "Error calling contract method:"
                (w ← this_web3;
                 contract ← request lib
                   (mkRequest eth_Contract_new w [abi; contractAddress]);
                 method ← get_prop contract "methodsmethodName";
                 result ← call_member lib method "call" [];
                 mret result)
                (mkRequest eth_Contract_new (web3 (self s))
                   [abi; contractAddress])
                (fun contract =>
                   method ← get_prop contract "methodsmethodName";
                   result ← call_member lib method "call" [];
                   mret result)
                s eq_refl)
      as (rc & rest & Hcalls & Hrc); [intros; orderly_pieces|].
    exists rc, rest. by rewrite Hrc.
  - destruct (first_call_try "Error deploying contract:"
                (w ← this_web3;
                 contract ← request lib (mkRequest eth_Contract_new w [abi]);
                 deploy ← call_member lib contract "deploy"
                   [VObj {[ "data" := bytecode;
                            "arguments" := constructorParams ]}];
                 transaction ← call_member lib deploy "send"
                   [VObj {[ "from" := fromAddress; "gas" := VNum 2000000 ]}];
                 get_prop transaction "contractAddress")
                (mkRequest eth_Contract_new (web3 (self s)) [abi])
                (fun contract =>
                   deploy ← call_member lib contract "deploy"
                     [VObj {[ "data" := bytecode;
                              "arguments" := constructorParams ]}];
                   transaction ← call_member lib deploy "send"
                     [VObj {[ "from" := fromAddress;
                              "gas" := VNum 2000000 ]}];
                   get_prop transaction "contractAddress")
                s eq_refl)
      as (rc & rest & Hcalls & Hrc); [intros; orderly_pieces|].
    exists rc, rest. by rewrite Hrc.
  - destruct (first_call_try "Error sending transaction:"
                (w ← this_web3;
                 w' ← this_web3;
                 value ← request lib
                   (mkRequest utils_toWei w' [amount; VStr "ether"]);
                 tx ← request lib
                   (mkRequest eth_sendTransaction w
                      [VObj {[ "from" := fromAddress; "to" := toAddress;
                               "value" := value ]}]);
                 get_prop tx "transactionHash")
                (mkRequest utils_toWei (web3 (self s)) [amount; VStr "ether"])
                (fun value =>
                   tx ← request lib
                     (mkRequest eth_sendTransaction (web3 (self s))
                        [VObj {[ "from" := fromAddress; "to" := toAddress;
                                 "value" := value ]}]);
                   get_prop tx "transactionHash")
                s eq_refl)
      as (rc & rest & Hcalls & Hrc); [intros; orderly_pieces|].
    exists rc, rest. by rewrite Hrc.
Qed.

(** Through any sequence of calls, the handle stays and every call into
    the library goes through it. *)
Lemma run_ops_keep_handle (os : list Op) h s :
  web3 (self s) = h ->
  web3 (self (run_ops lib os s)) = h
  /\ exists later,
       calls (run_ops lib os s) = calls s ++ later
       /\ Forall (fun rc => through h rc.1) later.
Proof.
  revert s. induction os as [|o os IH]; intros s Hs; simpl.
  - split; [done|]. exists []. by rewrite app_nil_r.
  - destruct (run_op_facade_method o s)
      as (new & Hself & Hcalls & _ & _ & Hthr & _).
    destruct (IH (run_op lib o s).2 ltac:(congruence))
      as (Hfin & later & Hlater & Hthr').
    split; [done|]. exists (new ++ later). split.
    + by rewrite Hlater, Hcalls, app_assoc.
    + apply Forall_app. split; [|done]. by rewrite <- Hs.
Qed.

End FacadeFacts.

(** ** The simulated library conforms *)

Lemma Sim_standard_fromWei : standard_fromWei Sim.lib.
Proof.
  intros h v wei n Hv. unfold Sim.lib. simpl. by rewrite Hv.
Qed.

Lemma Sim_standard_toWei : standard_toWei Sim.lib.
Proof.
  intros h amount wei n Ha. unfold Sim.lib. simpl. by rewrite Ha.
Qed.

Lemma Sim_contract_lacks (p : string) :
  p <> "options" -> contract_lacks Sim.lib p.
Proof.
  intros Hp [a rc ar] n n' c. simpl. intros ->. unfold Sim.lib. simpl.
  destruct ar as [|abi rest]; [done|]. intros [= <- <-].
  eexists. split; [done|]. by apply lookup_singleton_ne.
Qed.

(** ** The five methods *)

Section Claims.

Context {Node : Type}.
Variable lib : Request -> Node -> Completion Value * Node.

Implicit Types (s : @State Node) (h v : Value) (r : Request) (e : Error).

(** Unfold a method down to the library's answers. *)
Ltac unfold_method :=
  unfold getBlockNumber, getBalance, callContractMethod, deployContract,
    sendTransaction, constructor, try_catch, log_and_rethrow, this_web3,
    set_this_web3, console_error, request, call_member, get_prop, throw,
    mbind, M_bind, mret, M_ret;
  simpl.

(** C6. [getBlockNumber] takes no argument and returns what the client
    reports as the current block number, unchanged, after exactly one
    call into the library and without logging; when the client reports
    100 it returns 100. *)
Theorem getBlockNumber_returns_head s (v : Value) (n' : Node) :
  lib (mkRequest eth_getBlockNumber (web3 (self s)) []) (node s)
  = (Returned v, n') ->
  getBlockNumber lib s
  = (Returned v,
     {| self := self s; node := n'; console := console s;
        calls := calls s
                 ++ [(mkRequest eth_getBlockNumber (web3 (self s)) [],
                      Returned v)] |})
  /\ (v = VNum 100 -> (getBlockNumber lib s).1 = Returned (VNum 100)).
Proof.
  intros H.
  assert (Hrun : getBlockNumber lib s
                 = (Returned v,
                    {| self := self s; node := n'; console := console s;
                       calls := calls s
                         ++ [(mkRequest eth_getBlockNumber (web3 (self s)) [],
                              Returned v)] |})).
  { unfold_method. by rewrite H. }
  split; [done|]. intros ->. by rewrite Hrun.
Qed.

(** C1. For an address whose raw balance the client reports as [raw] wei,
    and a library whose [fromWei] is the standard conversion,
    [getBalance] returns the decimal string of [raw / 10^18]: the string
    denotes exactly that rational number, converts back to [raw], and is
    ["2.5"] for 2500000000000000000. *)
Theorem getBalance_converts_to_ether s (address balance : Value) (raw : N)
    (n' : Node) :
  standard_fromWei lib ->
  lib (mkRequest eth_getBalance (web3 (self s)) [address]) (node s)
  = (Returned balance, n') ->
  Units.wei_of balance = Some raw ->
  getBalance lib address s
  = (Returned (VStr (Units.fromWei raw ether_decimals)),
     {| self := self s; node := n'; console := console s;
        calls := calls s
          ++ [(mkRequest eth_getBalance (web3 (self s)) [address],
               Returned balance);
              (mkRequest utils_fromWei (web3 (self s)) [balance; VStr "ether"],
               Returned (VStr (Units.fromWei raw ether_decimals)))] |})
  /\ (exists q,
        Units.decimal_value (Units.fromWei raw ether_decimals) = Some q
        /\ (q == inject_Z (Z.of_N raw) / inject_Z (10 ^ 18))%Q)
  /\ Units.toWei (Units.fromWei raw ether_decimals) ether_decimals = Some raw
  /\ (raw = 2500000000000000000%N ->
      (getBalance lib address s).1 = Returned (VStr "2.5")).
Proof.
  intros Hstd Hbal Hraw.
  assert (Hrun : getBalance lib address s
    = (Returned (VStr (Units.fromWei raw ether_decimals)),
       {| self := self s; node := n'; console := console s;
          calls := calls s
            ++ [(mkRequest eth_getBalance (web3 (self s)) [address],
                 Returned balance);
                (mkRequest utils_fromWei (web3 (self s)) [balance; VStr "ether"],
                 Returned (VStr (Units.fromWei raw ether_decimals)))] |})).
  { unfold_method. rewrite Hbal. simpl.
    rewrite (Hstd _ _ _ n' Hraw). simpl. by rewrite <- app_assoc. }
  split_and!.
  - done.
  - apply UnitsFacts.decimal_value_fromWei.
  - apply UnitsFacts.toWei_fromWei.
  - intros ->. by rewrite Hrun.
Qed.

(** C7. For a sender, a recipient and an amount that is a decimal Ether
    string worth [wei] wei, on a library with the standard [toWei]:
    [sendTransaction] first converts the amount, then submits the
    transaction carrying the converted value, and, once the client
    accepts it with a receipt, returns the receipt's transaction hash.
    The value submitted denotes the amount scaled by [10^18]. *)
Theorem sendTransaction_converts_then_submits s
    (fromAddress toAddress : Value) (amount : string) (wei : N)
    (receipt : gmap string Value) (hash : string) (n' : Node) :
  standard_toWei lib ->
  Units.toWei amount ether_decimals = Some wei ->
  lib (mkRequest eth_sendTransaction (web3 (self s))
         [VObj {[ "from" := fromAddress; "to" := toAddress;
                  "value" := VStr (pretty wei) ]}]) (node s)
  = (Returned (VObj receipt), n') ->
  receipt !! "transactionHash" = Some (VStr hash) ->
  sendTransaction lib fromAddress toAddress (VStr amount) s
  = (Returned (VStr hash),
     {| self := self s; node := n'; console := console s;
        calls := calls s
          ++ [(mkRequest utils_toWei (web3 (self s))
                 [VStr amount; VStr "ether"],
               Returned (VStr (pretty wei)));
              (mkRequest eth_sendTransaction (web3 (self s))
                 [VObj {[ "from" := fromAddress; "to" := toAddress;
                          "value" := VStr (pretty wei) ]}],
               Returned (VObj receipt))] |})
  /\ Units.wei_of (VStr (pretty wei)) = Some wei
  /\ (exists q,
        Units.decimal_value amount = Some q
        /\ (q == inject_Z (Z.of_N wei) / inject_Z (10 ^ 18))%Q).
Proof.
  intros Hstd Hwei Hsend Hhash. split_and!.
  - unfold_method. rewrite (Hstd _ _ _ (node s) Hwei). simpl.
    rewrite Hsend. simpl. rewrite Hhash. simpl. by rewrite <- app_assoc.
  - pose proof (UnitsFacts.parse_pretty wei) as Hp.
    pose proof (UnitsFacts.pretty_nonempty wei) as Hn.
    simpl. by destruct (pretty wei).
  - exact (UnitsFacts.decimal_value_toWei amount ether_decimals wei Hwei).
Qed.

(** C10. The transaction object that [sendTransaction] submits has
    exactly the fields [from], [to] and [value]: the sender and the
    recipient as given and the library's conversion of the amount; it
    sets no [gas], [gasPrice], [nonce] or [data].  The calls made are the
    conversion and then, if that returned, the submission of this
    object. *)
Theorem sendTransaction_object_fields s (fromAddress toAddress amount : Value) :
  let convert :=
    mkRequest utils_toWei (web3 (self s)) [amount; VStr "ether"] in
  let tx (value : Value) : gmap string Value :=
    {[ "from" := fromAddress; "to" := toAddress; "value" := value ]} in
  let submit (value : Value) :=
    mkRequest eth_sendTransaction (web3 (self s)) [VObj (tx value)] in
  (forall value,
     dom (tx value) = {[ "from"; "to"; "value" ]}
     /\ tx value !! "from" = Some fromAddress
     /\ tx value !! "to" = Some toAddress
     /\ tx value !! "value" = Some value
     /\ tx value !! "gas" = None
     /\ tx value !! "gasPrice" = None
     /\ tx value !! "nonce" = None
     /\ tx value !! "data" = None)
  /\ calls (sendTransaction lib fromAddress toAddress amount s).2
     = calls s
       ++ match lib convert (node s) with
          | (Thrown e, _) => [(convert, Thrown e)]
          | (Returned value, n1) =>
              [(convert, Returned value);
               (submit value, (lib (submit value) n1).1)]
          end.
Proof.
  intros convert tx submit. split.
  - intros value. unfold tx.
    split_and!; try done; rewrite !dom_insert_L, dom_empty_L; set_solver.
  - unfold_method. fold convert.
    destruct (lib convert (node s)) as [[value|e] n1]; simpl; [|done].
    fold (tx value). fold (submit value).
    destruct (lib (submit value) n1) as [[[]|e] n2]; simpl;
      by rewrite <- app_assoc.
Qed.


(** C3. On a library whose contract objects have no property
    [methodsmethodName], [callContractMethod] never returns a value.  For
    every address, ABI, method name and parameter list it makes one call,
    the creation of the contract object, and throws: the error of that
    creation if it failed, and otherwise always the same [TypeError],
    raised by the runtime on [undefined].  It calls no method of the
    contract, logs the error once, and its behaviour does not depend on
    the method name or the parameters. *)
Theorem callContractMethod_always_fails s
    (contractAddress abi methodName methodParams : Value) :
  contract_lacks lib "methodsmethodName" ->
  let create :=
    mkRequest eth_Contract_new (web3 (self s)) [abi; contractAddress] in
  let answer := lib create (node s) in
  exists e,
    callContractMethod lib contractAddress abi methodName methodParams s
    = (Thrown e,
       {| self := self s; node := answer.2;
          console := console s
                     ++ [mkLogLine "Error calling contract method:" e];
          calls := calls s ++ [(create, answer.1)] |})
    /\ (answer.1 = Thrown e
        \/ (exists contract, answer.1 = Returned contract)
           /\ e = mkError TypeError
                    "Cannot read properties of undefined (reading 'call')")
    /\ (forall methodName' methodParams',
          callContractMethod lib contractAddress abi methodName' methodParams'
          = callContractMethod lib contractAddress abi methodName methodParams).
Proof.
  intros Hlacks create answer. subst answer. unfold_method. fold create.
  destruct (lib create (node s)) as [[contract|e] n1] eqn:E; simpl.
  - destruct (Hlacks create _ _ _ eq_refl E) as (props & -> & Hp).
    rewrite Hp. simpl. eexists. split_and!; [done| |done].
    right. split; [by eexists|done].
  - exists e. split_and!; [done| |done]. by left.
Qed.

(** C9. [callContractMethod] does not depend on [methodParams]: with two
    parameter lists it is the same computation.  Whatever it calls on a
    contract's method object is [call], with an empty argument list. *)
Theorem callContractMethod_ignores_params
    (contractAddress abi methodName params1 params2 : Value) :
  callContractMethod lib contractAddress abi methodName params1
  = callContractMethod lib contractAddress abi methodName params2
  /\ forall s, exists new,
       calls (callContractMethod lib contractAddress abi methodName params1 s).2
       = calls s ++ new
       /\ Forall (fun rc =>
            forall name, api rc.1 = member name ->
              name = "call" /\ args rc.1 = []) new.
Proof.
  split; [done|]. intros s. unfold_method.
  destruct (lib _ (node s)) as [[[| | | | | |props]|e] n1]; unfold_method;
    try destruct (props !! "methodsmethodName") as [[| | | | | |method]|];
    unfold_method;
    try destruct (lib _ n1) as [[result|e'] n2]; simpl.
  all: rewrite <- ?app_assoc; simpl; eexists; (split; [reflexivity|]).
  all: repeat (apply Forall_cons; split); try apply Forall_nil; simpl.
  all: try done. all: intros name; try done. all: by intros [= <-].
Qed.


(** C8. The constructor makes one call, [new Web3(providerUrl)], and
    stores the handle it returns.  After that, through any sequence of
    calls of the five methods, [this.web3] is still that handle, no
    other handle is created, every call that goes through a handle goes
    through that one, and each method starts with such a call. *)
Theorem handle_created_once_and_reused (providerUrl : Value) (os : list Op)
    s (h : Value) (n' : Node) :
  let create := mkRequest Web3_new VUndefined [providerUrl] in
  lib create (node s) = (Returned h, n') ->
  let constructed := (constructor lib providerUrl s).2 in
  let final := run_ops lib os constructed in
  constructed
  = {| self := {| web3 := h |}; node := n'; console := console s;
       calls := calls s ++ [(create, Returned h)] |}
  /\ web3 (self final) = h
  /\ (exists later,
        calls final = calls s ++ [(create, Returned h)] ++ later
        /\ Forall (fun rc => through h rc.1) later)
  /\ (forall (o : Op) s',
        web3 (self s') = h ->
        self (run_op lib o s').2 = self s'
        /\ exists rc rest,
             calls (run_op lib o s').2 = calls s' ++ rc :: rest
             /\ web3_api (api rc.1) = true
             /\ receiver rc.1 = h).
Proof.
  intros create Hnew constructed final.
  assert (Hc : constructed
    = {| self := {| web3 := h |}; node := n'; console := console s;
         calls := calls s ++ [(create, Returned h)] |}).
  { subst constructed. unfold_method. fold create. by rewrite Hnew. }
  split_and!.
  - done.
  - subst final. apply (run_ops_keep_handle lib). by rewrite Hc.
  - destruct (run_ops_keep_handle lib os h constructed ltac:(by rewrite Hc))
      as (_ & later & Hlater & Hthr).
    exists later. split; [|done]. subst final. rewrite Hlater, Hc. simpl.
    by rewrite <- app_assoc.
  - intros o s' Hs'. split.
    + by destruct (run_op_facade_method lib o s') as (new & Hself & _).
    + destruct (run_op_first_call lib o s') as (rc & rest & H1 & H2 & H3).
      exists rc, rest. split_and!; [done|done|congruence].
Qed.

End Claims.

(** On the simulated chain at block 100, [getBlockNumber()] is 100. *)
Lemma getBlockNumber_returns_head_witness :
  (getBlockNumber Sim.lib (Sim.fresh Sim.chain100)).1 = Returned (VNum 100).
Proof.
  exact (proj2 (getBlockNumber_returns_head Sim.lib (Sim.fresh Sim.chain100)
                  (VNum 100) Sim.chain100 eq_refl) eq_refl).
Defined.

(** On the simulated chain, where ["0xABC"] holds 2500000000000000000
    wei, [getBalance("0xABC")] is ["2.5"]. *)
Lemma getBalance_converts_to_ether_witness :
  (getBalance Sim.lib (VStr "0xABC") (Sim.fresh Sim.chain100)).1
  = Returned (VStr "2.5").
Proof.
  apply (getBalance_converts_to_ether Sim.lib (Sim.fresh Sim.chain100)
           (VStr "0xABC") (VStr "2500000000000000000")
           2500000000000000000%N Sim.chain100
           Sim_standard_fromWei eq_refl eq_refl).
  reflexivity.
Defined.

(** On the simulated chain, sending ["1.5"] Ether submits
    1500000000000000000 wei and returns the hash of the receipt. *)
Lemma sendTransaction_converts_then_submits_witness :
  (sendTransaction Sim.lib (VStr "0xABC") (VStr "0xDEF") (VStr "1.5")
     (Sim.fresh Sim.chain100)).1
  = Returned (VStr "0x9fc76417374a").
Proof.
  exact (f_equal fst
           (proj1 (sendTransaction_converts_then_submits Sim.lib
                     (Sim.fresh Sim.chain100) (VStr "0xABC") (VStr "0xDEF")
                     "1.5" 1500000000000000000%N
                     {[ "transactionHash" := VStr "0x9fc76417374a";
                        "blockNumber" := VNum 101 ]}
                     "0x9fc76417374a" (Sim.mined Sim.chain100)
                     Sim_standard_toWei eq_refl eq_refl eq_refl))).
Defined.


(** On the simulated library, calling a method that the ABI declares
    throws. *)
Lemma callContractMethod_always_fails_witness :
  exists e,
    (callContractMethod Sim.lib (VStr "0xC0FFEE") Sim.token_abi
       (VStr "totalSupply") (VArr []) (Sim.fresh Sim.chain100)).1
    = Thrown e.
Proof.
  destruct (callContractMethod_always_fails Sim.lib (Sim.fresh Sim.chain100)
              (VStr "0xC0FFEE") Sim.token_abi (VStr "totalSupply") (VArr [])
              (Sim_contract_lacks "methodsmethodName" ltac:(discriminate)))
    as (e & Hrun & _).
  exists e. exact (f_equal fst Hrun).
Defined.

(** On the simulated library, after construction and two calls the
    handle is the one the constructor stored. *)
Lemma handle_created_once_and_reused_witness :
  web3 (self (run_ops Sim.lib
                [OpGetBlockNumber; OpGetBalance (VStr "0xABC")]
                (constructor Sim.lib Sim.provider
                   (Sim.blank Sim.chain100)).2))
  = Sim.handle.
Proof.
  exact (proj1 (proj2 (handle_created_once_and_reused Sim.lib Sim.provider
                         [OpGetBlockNumber; OpGetBalance (VStr "0xABC")]
                         (Sim.blank Sim.chain100) Sim.handle Sim.chain100
                         eq_refl))).
Defined.

(** C2. [callContractMethod] at inputs where the claim expects
    [InvalidMethodError] or [ConnectionError].  With a method name that
    the ABI does not declare it throws a [TypeError]; with a declared
    name and the connection down it throws the same [TypeError], where a
    method that reaches the node throws the client's [ConnectionError];
    and with a declared name on a reachable node it throws it as well,
    having called only the contract's constructor. *)
Theorem callContractMethod_never_dispatches :
  let type_error :=
    mkError TypeError "Cannot read properties of undefined (reading 'call')" in
  resolves Sim.token_abi "burn" = false
  /\ (callContractMethod Sim.lib (VStr "0xC0FFEE") Sim.token_abi
        (VStr "burn") (VArr []) (Sim.fresh Sim.chain100)).1
     = Thrown type_error
  /\ resolves Sim.token_abi "totalSupply" = true
  /\ (callContractMethod Sim.lib (VStr "0xC0FFEE") Sim.token_abi
        (VStr "totalSupply") (VArr []) (Sim.fresh Sim.offline100)).1
     = Thrown type_error
  /\ (getBlockNumber Sim.lib (Sim.fresh Sim.offline100)).1
     = Thrown (mkError ConnectionError "connection not open")
  /\ (callContractMethod Sim.lib (VStr "0xC0FFEE") Sim.token_abi
        (VStr "totalSupply") (VArr []) (Sim.fresh Sim.chain100)).1
     = Thrown type_error
  /\ map (fun rc => api rc.1)
       (calls (callContractMethod Sim.lib (VStr "0xC0FFEE") Sim.token_abi
                 (VStr "totalSupply") (VArr []) (Sim.fresh Sim.chain100)).2)
     = [eth_Contract_new].
Proof. by vm_compute. Qed.

(** ** Edges of the methods, and sequences of calls *)

Section Edges.

Context {Node : Type}.
Variable lib : Request -> Node -> Completion Value * Node.

Implicit Types (s : @State Node) (h v : Value) (r : Request) (e : Error).

(** Run a method down to the library's answers. *)
Ltac run_method :=
  unfold run_op, getBlockNumber, getBalance, callContractMethod,
    deployContract, sendTransaction, constructor, try_catch,
    log_and_rethrow, this_web3, set_this_web3, console_error, request,
    call_member, get_prop, throw, mbind, M_bind, mret, M_ret;
  simpl.

(** Split on every answer of the library and on every value the method
    inspects. *)
Ltac run_cases :=
  run_method;
  repeat first
    [ match goal with
      | |- context [lib ?r ?n] =>
          destruct (lib r n) as [[[| | | | | |?]|?] ?]; run_method
      end
    | match goal with
      | |- context [@lookup string Value _ _ ?k ?m] =>
          destruct (m !! k) as [[| | | | | |?]|]; run_method
      end ].

(** X1. The constructor has no [catch] block: when [new Web3(providerUrl)]
    throws, the constructor throws that error, nothing is written to the
    console and [this.web3] is not assigned. *)
Theorem constructor_propagates_failure s (providerUrl : Value) e (n' : Node) :
  lib (mkRequest Web3_new VUndefined [providerUrl]) (node s) = (Thrown e, n') ->
  constructor lib providerUrl s
  = (Thrown e,
     {| self := self s; node := n'; console := console s;
        calls := calls s
          ++ [(mkRequest Web3_new VUndefined [providerUrl], Thrown e)] |}).
Proof. intros H. run_method. by rewrite H. Qed.

(** X2. When the client's [getBalance] fails, [getBalance] throws the
    client's error, logs it once under its label and never calls
    [fromWei]. *)
Theorem getBalance_fetch_failure s (address : Value) e (n' : Node) :
  lib (mkRequest eth_getBalance (web3 (self s)) [address]) (node s)
  = (Thrown e, n') ->
  getBalance lib address s
  = (Thrown e,
     {| self := self s; node := n';
        console := console s ++ [mkLogLine "Error fetching balance:" e];
        calls := calls s
          ++ [(mkRequest eth_getBalance (web3 (self s)) [address],
               Thrown e)] |}).
Proof. intros H. run_method. by rewrite H. Qed.

(** X3. When [toWei] throws on the amount, [sendTransaction] throws that
    error and logs it once; the conversion is the only call it makes, so
    no transaction is submitted. *)
Theorem sendTransaction_conversion_failure s
    (fromAddress toAddress amount : Value) e (n' : Node) :
  lib (mkRequest utils_toWei (web3 (self s)) [amount; VStr "ether"]) (node s)
  = (Thrown e, n') ->
  sendTransaction lib fromAddress toAddress amount s
  = (Thrown e,
     {| self := self s; node := n';
        console := console s ++ [mkLogLine "Error sending transaction:" e];
        calls := calls s
          ++ [(mkRequest utils_toWei (web3 (self s)) [amount; VStr "ether"],
               Thrown e)] |}).
Proof. intros H. run_method. by rewrite H. Qed.

(** X4. When the client accepts the transaction but what it returns is
    an object without a [transactionHash], [sendTransaction] returns
    [undefined]: it does not throw and logs nothing. *)
Theorem sendTransaction_receipt_without_hash s
    (fromAddress toAddress amount value : Value)
    (receipt : gmap string Value) (n1 n2 : Node) :
  lib (mkRequest utils_toWei (web3 (self s)) [amount; VStr "ether"]) (node s)
  = (Returned value, n1) ->
  lib (mkRequest eth_sendTransaction (web3 (self s))
         [VObj {[ "from" := fromAddress; "to" := toAddress;
                  "value" := value ]}]) n1
  = (Returned (VObj receipt), n2) ->
  receipt !! "transactionHash" = None ->
  (sendTransaction lib fromAddress toAddress amount s).1 = Returned VUndefined
  /\ console (sendTransaction lib fromAddress toAddress amount s).2
     = console s
  /\ node (sendTransaction lib fromAddress toAddress amount s).2 = n2.
Proof.
  intros H1 H2 H3. run_method. rewrite H1. run_method. rewrite H2.
  run_method. by rewrite H3.
Qed.

(** X5. When the client accepts the transaction and returns [undefined]
    or [null], reading [transactionHash] throws: [sendTransaction] fails
    with the runtime's [TypeError] and logs it, although the transaction
    was submitted and the node is in the state the submission left. *)
Theorem sendTransaction_fails_after_submission s
    (fromAddress toAddress amount value receipt : Value) (n1 n2 : Node) :
  lib (mkRequest utils_toWei (web3 (self s)) [amount; VStr "ether"]) (node s)
  = (Returned value, n1) ->
  lib (mkRequest eth_sendTransaction (web3 (self s))
         [VObj {[ "from" := fromAddress; "to" := toAddress;
                  "value" := value ]}]) n1
  = (Returned receipt, n2) ->
  receipt = VUndefined \/ receipt = VNull ->
  exists e,
    (sendTransaction lib fromAddress toAddress amount s).1 = Thrown e
    /\ kind e = TypeError
    /\ console (sendTransaction lib fromAddress toAddress amount s).2
       = console s ++ [mkLogLine "Error sending transaction:" e]
    /\ node (sendTransaction lib fromAddress toAddress amount s).2 = n2
    /\ calls (sendTransaction lib fromAddress toAddress amount s).2
       = calls s
         ++ [(mkRequest utils_toWei (web3 (self s)) [amount; VStr "ether"],
              Returned value);
             (mkRequest eth_sendTransaction (web3 (self s))
                [VObj {[ "from" := fromAddress; "to" := toAddress;
                         "value" := value ]}],
              Returned receipt)].
Proof.
  intros H1 H2 Hr. run_method. rewrite H1. run_method. rewrite H2.
  destruct Hr as [-> | ->]; run_method; eexists; split_and!; try done;
    by rewrite <- app_assoc.
Qed.

(** X6. When the three calls of [deployContract] return and what [send]
    resolves to is an object without a [contractAddress] (for one that
    keeps the address elsewhere, such as under [options.address]),
    [deployContract] returns [undefined]: it does not throw and logs
    nothing, after the deployment was sent. *)
Theorem deployContract_result_without_address s
    (abi bytecode fromAddress constructorParams : Value)
    (contract deployment result : gmap string Value) (n1 n2 n3 : Node) :
  lib (mkRequest eth_Contract_new (web3 (self s)) [abi]) (node s)
  = (Returned (VObj contract), n1) ->
  lib (mkRequest (member "deploy") (VObj contract)
         [VObj {[ "data" := bytecode; "arguments" := constructorParams ]}]) n1
  = (Returned (VObj deployment), n2) ->
  lib (mkRequest (member "send") (VObj deployment)
         [VObj {[ "from" := fromAddress; "gas" := VNum 2000000 ]}]) n2
  = (Returned (VObj result), n3) ->
  result !! "contractAddress" = None ->
  (deployContract lib abi bytecode fromAddress constructorParams s).1
  = Returned VUndefined
  /\ console (deployContract lib abi bytecode fromAddress constructorParams s).2
     = console s
  /\ node (deployContract lib abi bytecode fromAddress constructorParams s).2
     = n3.
Proof.
  intros H1 H2 H3 H4. run_method. rewrite H1. run_method. rewrite H2.
  run_method. rewrite H3. run_method. by rewrite H4.
Qed.

(** X7. When creating the contract object fails, or asking it for the
    deployment fails, [deployContract] throws that error, logs it once,
    and sends nothing: no [send] is among the calls it made. *)
Theorem deployContract_sends_nothing_after_failure s
    (abi bytecode fromAddress constructorParams : Value) e :
  let create := mkRequest eth_Contract_new (web3 (self s)) [abi] in
  let deploy (contract : Value) :=
    mkRequest (member "deploy") contract
      [VObj {[ "data" := bytecode; "arguments" := constructorParams ]}] in
  let after := deployContract lib abi bytecode fromAddress constructorParams s in
  (lib create (node s)).1 = Thrown e
  \/ (exists contract n1,
        lib create (node s) = (Returned (VObj contract), n1)
        /\ (lib (deploy (VObj contract)) n1).1 = Thrown e) ->
  after.1 = Thrown e
  /\ console after.2 = console s ++ [mkLogLine "Error deploying contract:" e]
  /\ exists new,
       calls after.2 = calls s ++ new
       /\ Forall (fun rc => api rc.1 <> member "send") new.
Proof.
  intros create deploy after [H | (contract & n1 & H1 & H2)]; subst after.
  - run_method. fold create. destruct (lib create (node s)) as [c n1].
    simpl in H. subst c. simpl. split_and!; try done.
    eexists. split; [done|]. by repeat constructor.
  - run_method. fold create. rewrite H1. run_method.
    fold (deploy (VObj contract)).
    destruct (lib (deploy (VObj contract)) n1) as [c n2].
    simpl in H2. subst c. simpl. split_and!; try done.
    eexists. rewrite <- app_assoc. split; [done|]. by repeat constructor.
Qed.

(** The calls one method makes, counted. *)
Lemma run_op_calls_counted (o : Op) s :
  exists new,
    calls (run_op lib o s).2 = calls s ++ new
    /\ 1 <= length new <= max_calls o.
Proof.
  destruct o; run_cases.
  all: rewrite <- ?app_assoc; simpl; eexists; (split; [reflexivity|]).
  all: simpl; lia.
Qed.


(** X9. A sequence of calls of the methods extends the call log, by at
    least one call and at most three calls for each of them. *)
Theorem run_ops_call_bounds (os : list Op) s :
  exists new,
    calls (run_ops lib os s) = calls s ++ new
    /\ length os <= length new <= sum_list (max_calls <$> os)
    /\ length new <= 3 * length os.
Proof.
  revert s. induction os as [|o os IH]; intros s; simpl.
  - exists []. rewrite app_nil_r. simpl. split_and!; [done|lia|lia|lia].
  - destruct (run_op_calls_counted o s) as (new1 & H1 & Hlo & Hhi).
    destruct (IH (run_op lib o s).2) as (new2 & H2 & [Hlo2 Hhi2] & H3).
    exists (new1 ++ new2). split.
    + by rewrite H2, H1, app_assoc.
    + rewrite length_app.
      assert (max_calls o <= 3) by (destruct o; simpl; lia).
      change (list_fmap Op nat max_calls os) with (max_calls <$> os). lia.
Qed.

(** X10. After a sequence of calls of the methods the console holds what
    it held before, followed by one line for each call that threw: the
    label of its method with the error it threw, in the order of the
    calls.  Calls that return write nothing. *)
Theorem run_ops_console (os : list Op) s :
  console (run_ops lib os s) = console s ++ run_ops_log lib os s
  /\ length (run_ops_log lib os s) <= length os.
Proof.
  revert s. induction os as [|o os IH]; intros s; simpl.
  - by rewrite app_nil_r.
  - destruct (IH (run_op lib o s).2) as [Hcon Hlen].
    destruct (run_op_facade_method lib o s)
      as (new & _ & _ & _ & _ & _ & _ & Hlog & Hquiet).
    rewrite Hcon, length_app.
    destruct (run_op lib o s).1 as [v|e] eqn:E.
    + rewrite (Hquiet v eq_refl). simpl. split; [done|lia].
    + rewrite (Hlog e eq_refl). simpl. split; [by rewrite <- app_assoc|lia].
Qed.

End Edges.

(** On a library that refuses every call, constructing throws the
    refusal. *)
Lemma constructor_propagates_failure_witness :
  (constructor (Stub.refusing Sim.unreachable) Sim.provider
     (Stub.start VUndefined)).1
  = Thrown Sim.unreachable.
Proof.
  exact (f_equal fst
           (constructor_propagates_failure (Stub.refusing Sim.unreachable)
              (Stub.start VUndefined) Sim.provider Sim.unreachable tt
              eq_refl)).
Defined.

(** On the simulated library, an address that is no string is rejected
    by the client, and so by [getBalance]. *)
Lemma getBalance_fetch_failure_witness :
  (getBalance Sim.lib (VNum 7) (Sim.fresh Sim.chain100)).1
  = Thrown (mkError InvalidAddressError "invalid address").
Proof.
  exact (f_equal fst
           (getBalance_fetch_failure Sim.lib (Sim.fresh Sim.chain100)
              (VNum 7) (mkError InvalidAddressError "invalid address")
              Sim.chain100 eq_refl)).
Defined.

(** On the simulated library, the amount ["abc"] cannot be converted and
    the only call made is the conversion. *)
Lemma sendTransaction_conversion_failure_witness :
  map (fun rc => api rc.1)
    (calls (sendTransaction Sim.lib (VStr "0xABC") (VStr "0xDEF")
              (VStr "abc") (Sim.fresh Sim.chain100)).2)
  = [utils_toWei].
Proof.
  exact (f_equal (fun out => map (fun rc => api rc.1) (calls out.2))
           (sendTransaction_conversion_failure Sim.lib
              (Sim.fresh Sim.chain100) (VStr "0xABC") (VStr "0xDEF")
              (VStr "abc") Sim.unsupported Sim.chain100 eq_refl)).
Defined.

(** On a library that answers every call with an empty object, sending
    returns [undefined]. *)
Lemma sendTransaction_receipt_without_hash_witness :
  (sendTransaction (Stub.answering (VObj ∅)) (VStr "0xABC") (VStr "0xDEF")
     (VStr "1") (Stub.start (VObj ∅))).1
  = Returned VUndefined.
Proof.
  exact (proj1 (sendTransaction_receipt_without_hash
                  (Stub.answering (VObj ∅)) (Stub.start (VObj ∅))
                  (VStr "0xABC") (VStr "0xDEF") (VStr "1") (VObj ∅) ∅ tt tt
                  eq_refl eq_refl eq_refl)).
Defined.

(** On a library that answers every call with [undefined], sending
    throws a [TypeError]. *)
Lemma sendTransaction_fails_after_submission_witness :
  exists e,
    (sendTransaction (Stub.answering VUndefined) (VStr "0xABC")
       (VStr "0xDEF") (VStr "1") (Stub.start (VObj ∅))).1
    = Thrown e
    /\ kind e = TypeError.
Proof.
  destruct (sendTransaction_fails_after_submission
              (Stub.answering VUndefined) (Stub.start (VObj ∅))
              (VStr "0xABC") (VStr "0xDEF") (VStr "1") VUndefined VUndefined
              tt tt eq_refl eq_refl (or_introl eq_refl))
    as (e & Hout & Hkind & _).
  exists e. by split.
Defined.

(** On a library whose [send] resolves to a contract instance with the
    address under [options], deploying returns [undefined]. *)
Lemma deployContract_result_without_address_witness :
  (deployContract (Stub.answering Stub.contract_instance) Sim.token_abi
     (VStr "0x6080") (VStr "0xABC") (VArr []) (Stub.start (VObj ∅))).1
  = Returned VUndefined.
Proof.
  refine (proj1 (deployContract_result_without_address
                   (Stub.answering Stub.contract_instance)
                   (Stub.start (VObj ∅)) Sim.token_abi (VStr "0x6080")
                   (VStr "0xABC") (VArr []) _ _ _ tt tt tt _ _ _ _));
    reflexivity.
Defined.

(** On a library that refuses every call, deploying throws the refusal
    of the contract's creation. *)
Lemma deployContract_sends_nothing_after_failure_witness :
  (deployContract (Stub.refusing Sim.unreachable) Sim.token_abi
     (VStr "0x6080") (VStr "0xABC") (VArr []) (Stub.start (VObj ∅))).1
  = Thrown Sim.unreachable.
Proof.
  exact (proj1 (deployContract_sends_nothing_after_failure
                  (Stub.refusing Sim.unreachable) (Stub.start (VObj ∅))
                  Sim.token_abi (VStr "0x6080") (VStr "0xABC") (VArr [])
                  Sim.unreachable (or_introl eq_refl))).
Defined.
